(** * The tool-invocation relay (apps/backend/main.py, POST /trigger-tool)

    A shallow embedding of the FastAPI handler [trigger_tool] and of the
    module-level start-up code around it, followed by the properties of
    the relay that the specification states.

    The handler talks to its surroundings in two ways only: it looks up
    variables of the process environment ([os.getenv]) and it issues an
    HTTP POST through [httpx].  Both are events of a small program
    monad; a [world] gives the events their meaning and records every
    outbound call. *)

From Stdlib Require Import ZArith String List Lia.
From stdpp Require Import base option list gmap strings fin_maps.

Local Open Scope Z_scope.
Local Open Scope string_scope.
Local Open Scope list_scope.

(** ** Data model *)

(** The Python value that [json.loads] returns.  [None] is [JNull], a
    [dict] is [JObj] (members in insertion order), a [list] is [JArr].
    A [float] is identified by its [repr]; the relay never looks inside
    a number. *)
#[warnings="-register-all"]
Inductive json : Type :=
| JNull
| JBool (b : bool)
| JInt (n : Z)
| JFloat (repr : string)
| JStr (s : string)
| JArr (items : list json)
| JObj (members : list (string * json)).

(** Lookup by key in the members of a [dict]. *)
Fixpoint dict_lookup {V : Type} (key : string) (d : list (string * V)) : option V :=
  match d with
  | [] => None
  | (k, v) :: rest => if String.eqb k key then Some v else dict_lookup key rest
  end.

(** [d.get(key)]: the value stored under [key], [None] when there is none. *)
Definition dict_get (d : list (string * json)) (key : string) : json :=
  default JNull (dict_lookup key d).

(** How an [httpx] request can fail before any response arrives. *)
Inductive transport_failure : Type :=
| ConnectError
| ConnectTimeout
| ReadTimeout.

(** The exceptions that can leave the handler. *)
Inductive exn : Type :=
| JSONDecodeError
| AttributeError
| TypeError
| TransportError (f : transport_failure).

(** The inbound request, as far as Starlette's [Request] exposes it. *)
Record request : Type := Request {
  req_headers : list (string * string);
  req_body : string
}.

(** What [client.post(url, json=..., headers=...)] puts on the wire. *)
Record outbound : Type := Outbound {
  out_url : string;
  out_headers : list (string * string);
  out_json : json
}.

(** The [httpx.Response] of the downstream. *)
Record response : Type := Response {
  status_code : Z;
  res_headers : list (string * string);
  content : string
}.

Inductive net_outcome : Type :=
| Replied (res : response)
| Failed (f : transport_failure).

(** What the caller of the relay receives. *)
Inductive reply_body : Type :=
| JsonBody (j : json)
| TextBody (s : string).

Record http_response : Type := HttpResponse {
  status : Z;
  headers_out : list (string * string);
  body_out : reply_body
}.

(** ** Programs with environment and network events *)

Inductive event : Type -> Type :=
| GetEnv (name : string) : event (option string)
| Post (call : outbound) : event net_outcome.

Inductive prog (A : Type) : Type :=
| Ret (a : A)
| Raise (e : exn)
| Vis {X : Type} (ev : event X) (k : X -> prog A).

Arguments Ret {A} a.
Arguments Raise {A} e.
Arguments Vis {A X} ev k.

Fixpoint bind {A B : Type} (p : prog A) (f : A -> prog B) : prog B :=
  match p with
  | Ret a => f a
  | Raise e => Raise e
  | Vis ev k => Vis ev (fun x => bind (k x) f)
  end.

#[global] Instance prog_ret : MRet prog := @Ret.
#[global] Instance prog_bind : MBind prog := fun A B f p => bind p f.

(** The process as the handler sees it: the environment variables, the
    downstream behind the network, and the log of outbound calls issued
    so far. *)
Record world : Type := World {
  environ : gmap string string;
  net : outbound -> net_outcome;
  outbox : list outbound
}.

Definition perform {X : Type} (ev : event X) (w : world) : X * world :=
  match ev in event T return T * world with
  | GetEnv name => (environ w !! name, w)
  | Post call => (net w call, World (environ w) (net w) (outbox w ++ [call]))
  end.

Fixpoint run {A : Type} (p : prog A) (w : world) : (exn + A) * world :=
  match p with
  | Ret a => (inr a, w)
  | Raise e => (inl e, w)
  | Vis ev k => let '(x, w') := perform ev w in run (k x) w'
  end.

(** ** Serialising a returned value *)

(** FastAPI's [jsonable_encoder] on a value that [json.loads] has
    returned: with its default [sqlalchemy_safe=True] it leaves out every
    key of a [dict] that starts with [_sa], at every depth, and keeps all
    the rest as it is. *)
Fixpoint jsonable_encoder (obj : json) : json :=
  match obj with
  | JArr items => JArr (List.map jsonable_encoder items)
  | JObj members =>
      JObj ((fix encode_dict (ms : list (string * json)) : list (string * json) :=
               match ms with
               | [] => []
               | (key, value) :: rest =>
                   if String.prefix "_sa" key then encode_dict rest
                   else (key, jsonable_encoder value) :: encode_dict rest
               end) members)
  | _ => obj
  end.

(** No key of the value starts with [_sa]. *)
Fixpoint sa_free (obj : json) : bool :=
  match obj with
  | JArr items => forallb sa_free items
  | JObj members =>
      (fix keys_free (ms : list (string * json)) : bool :=
         match ms with
         | [] => true
         | (key, value) :: rest =>
             negb (String.prefix "_sa" key) && sa_free value && keys_free rest
         end) members
  | _ => true
  end.

(** ** The handler *)

Section Handler.

(** [json.loads], used by both [Request.json] and [Response.json];
    [None] stands for [JSONDecodeError]. *)
Variable loads : string -> option json.

(** [await request.json()] *)
Definition request_json (req : request) : prog json :=
  match loads (req_body req) with
  | Some data => Ret data
  | None => Raise JSONDecodeError
  end.

(** [data.get(key)]: only a [dict] has the method. *)
Definition data_get (data : json) (key : string) : prog json :=
  match data with
  | JObj d => Ret (dict_get d key)
  | _ => Raise AttributeError
  end.

(** [os.getenv(name)] *)
Definition getenv (name : string) : prog (option string) :=
  Vis (GetEnv name) Ret.

(** [f"Bearer {value}"]: an unset variable is formatted as [None]. *)
Definition bearer (value : option string) : string :=
  "Bearer " +:+ default "None" value.

(** [await client.post(url, json=payload, headers=headers)].  httpx
    refuses a url that is not a [str] with [TypeError] before it sends
    anything, and does not raise on a non-2xx status. *)
Definition client_post (url : option string) (payload : json)
    (headers : list (string * string)) : prog response :=
  match url with
  | None => Raise TypeError
  | Some u =>
      Vis (Post (Outbound u headers payload))
          (fun o => match o with
                    | Replied res => Ret res
                    | Failed f => Raise (TransportError f)
                    end)
  end.

(** [res.json()] *)
Definition response_json (res : response) : prog json :=
  match loads (content res) with
  | Some j => Ret j
  | None => Raise JSONDecodeError
  end.

Definition trigger_tool (req : request) : prog json :=
  data ← request_json req;
  user_id ← data_get data "user_id";
  tool_id ← data_get data "tool_id";
  input_payload ← data_get data "input";
  key ← getenv "OPENAI_API_KEY";
  let headers := [("Authorization", bearer key)] in
  webhook_url ← getenv "n8n_WEBHOOK_URL";
  res ← client_post webhook_url
          (JObj [("user", user_id); ("tool", tool_id); ("input", input_payload)])
          headers;
  response_json res.

(** Whether FastAPI can serialise a returned value: [jsonable_encoder]
    comes to its end, [json.dumps] with [allow_nan=False] accepts every
    number in it (it raises on a float that is not finite), and the text
    can be encoded as UTF-8.  Like [loads], this is the library's
    business. *)
Variable serializable : json -> bool.

(** What FastAPI makes of a returned value: the value goes through
    [jsonable_encoder] and is rendered by a [JSONResponse] with the
    route's default status 200.  [None] when the serialisation raises. *)
Definition json_response (value : json) : option http_response :=
  if serializable value
  then Some (HttpResponse 200 [("content-type", "application/json")]
                          (JsonBody (jsonable_encoder value)))
  else None.

(** Starlette's answer to an exception that no handler is registered
    for. *)
Definition internal_server_error : http_response :=
  HttpResponse 500 [("content-type", "text/plain; charset=utf-8")]
               (TextBody "Internal Server Error").

(** The caller's response: the rendered value, or the plain 500 when the
    handler has raised or its value cannot be serialised. *)
Definition respond (r : exn + json) : http_response :=
  match r with
  | inr value => default internal_server_error (json_response value)
  | inl _ => internal_server_error
  end.

Definition serve (req : request) (w : world) : http_response * world :=
  let '(r, w') := run (trigger_tool req) w in (respond r, w').

End Handler.

(** ** Start-up *)

(** The variables of a [.env] file as python-dotenv collects them: of
    two lines for one name the later one counts. *)
Definition dotenv_values (lines : list (string * string)) : gmap string string :=
  foldl (fun m kv => <[kv.1 := kv.2]> m) ∅ lines.

(** [load_dotenv()]: variables of the file ([None]: there is no file)
    are added to the environment; a variable that is already set keeps
    its value. *)
Definition load_dotenv (file : option (list (string * string)))
    (env : gmap string string) : gmap string string :=
  match file with
  | Some lines => env ∪ dotenv_values lines
  | None => env
  end.

(** The module-level code of [main.py]: [load_dotenv()], then the [app]
    with its CORS middleware and its one route.  None of it looks at a
    variable, so none of it raises. *)
Definition startup (file : option (list (string * string)))
    (env : gmap string string) (downstream : outbound -> net_outcome) : exn + world :=
  inr (World (load_dotenv file env) downstream []).

(** ** Requests in flight at the same time *)

(** The handler is a coroutine: while one request waits, the event loop
    runs another.  asyncio switches at an [await] only; here a switch is
    allowed in front of every event, which covers the real schedules and
    more. *)

(** A request being handled: what is left of the handler's code, and the
    calls it has issued. *)
Record task : Type := Task {
  code : prog json;
  calls : list outbound
}.

Definition event_calls {X : Type} (ev : event X) : list outbound :=
  match ev with
  | Post call => [call]
  | GetEnv _ => []
  end.

(** One turn of a task: it performs its next event and stops in front of
    the following one.  A finished task stays as it is. *)
Definition task_step (t : task) (w : world) : task * world :=
  match code t with
  | Vis ev k => let '(x, w') := perform ev w in (Task (k x) (calls t ++ event_calls ev), w')
  | _ => (t, w)
  end.

Definition outcome (t : task) : option (exn + json) :=
  match code t with
  | Ret j => Some (inr j)
  | Raise e => Some (inl e)
  | Vis _ _ => None
  end.

(** The event loop gives the next turn to the task at index [i]. *)
Definition pool_step (i : nat) (st : list task * world) : list task * world :=
  match st.1 !! i with
  | Some t => let '(t', w') := task_step t st.2 in (<[i := t']> st.1, w')
  | None => st
  end.

Definition pool_run (sched : list nat) (st : list task * world) : list task * world :=
  foldl (fun st i => pool_step i st) st sched.

Definition spawn (loads : string -> option json) (reqs : list request) : list task :=
  (fun req => Task (trigger_tool loads req) []) <$> reqs.

(** The code of a task that has come to its end with outcome [r]. *)
Definition finished (r : exn + json) : prog json :=
  match r with
  | inr j => Ret j
  | inl e => Raise e
  end.

(** [n] turns of one task, every event answered as the world [w] does. *)
Definition turns (n : nat) (t : task) (w : world) : task :=
  Nat.iter n (fun t => fst (task_step t w)) t.

(** A program that is over after at most [n] events, whatever the
    answers to them. *)
Inductive finishes_within {A : Type} : nat -> prog A -> Prop :=
| fw_ret n a : finishes_within n (Ret a)
| fw_raise n e : finishes_within n (Raise e)
| fw_vis n X (ev : event X) k :
    (forall x, finishes_within n (k x)) -> finishes_within (S n) (Vis ev k).

(** Two worlds with the same environment and the same downstream. *)
Definition same_config (w1 w2 : world) : Prop :=
  environ w1 = environ w2 /\ net w1 = net w2.

(** ** The relay's call and what becomes of the downstream's answer *)

(** The call issued for a request whose body is the dict [d], when the
    webhook variable holds [url]. *)
Definition relay_call (w : world) (d : list (string * json)) (url : string) : outbound :=
  Outbound url
    [("Authorization", bearer (environ w !! "OPENAI_API_KEY"))]
    (JObj [("user", dict_get d "user_id"); ("tool", dict_get d "tool_id");
           ("input", dict_get d "input")]).

(** The handler's outcome once the network has answered. *)
Definition after_post (loads : string -> option json) (o : net_outcome) : exn + json :=
  match o with
  | Replied res =>
      match loads (content res) with
      | Some j => inr j
      | None => inl JSONDecodeError
      end
  | Failed f => inl (TransportError f)
  end.

(** The calls that a request causes: the relay's call when its body is a
    dict and the webhook variable is set, none otherwise. *)
Definition calls_for (loads : string -> option json) (w : world) (req : request)
    : list outbound :=
  match loads (req_body req) with
  | Some (JObj d) =>
      match environ w !! "n8n_WEBHOOK_URL" with
      | Some url => [relay_call w d url]
      | None => []
      end
  | _ => []
  end.

Definition client_error (code : Z) : Prop := 400 <= code < 500.
Definition success (code : Z) : Prop := 200 <= code < 300.

(** A call that has failed: no response has come, or one whose status
    is outside the 2xx range. *)
Definition failed_interaction (o : net_outcome) : Prop :=
  match o with
  | Failed _ => True
  | Replied res => ~ success (status_code res)
  end.

(** ** Sample documents, downstreams and worlds *)

Module Samples.

(** The double-quote character and a quoted word of JSON text. *)
Definition dq : string := String (Ascii.ascii_of_nat 34) EmptyString.
Definition q (s : string) : string := dq +:+ s +:+ dq.

Definition text_full : string :=
  "{" +:+ q "user_id" +:+ ": " +:+ q "u1" +:+ ", " +:+ q "tool_id" +:+ ": "
      +:+ q "summarise" +:+ ", " +:+ q "input" +:+ ": {" +:+ q "text" +:+ ": "
      +:+ q "hello" +:+ "}}".
Definition text_other_tool : string :=
  "{" +:+ q "user_id" +:+ ": " +:+ q "u2" +:+ ", " +:+ q "tool_id" +:+ ": "
      +:+ q "translate" +:+ "}".
Definition text_no_user : string :=
  "{" +:+ q "tool_id" +:+ ": " +:+ q "summarise" +:+ ", " +:+ q "input" +:+ ": 42}".
Definition text_untyped : string :=
  "{" +:+ q "user_id" +:+ ": 7, " +:+ q "tool_id" +:+ ": {" +:+ q "id" +:+ ": null}}".
Definition text_list : string := "[1, 2]".
Definition text_broken : string := "{oops".
Definition text_ok : string := "{" +:+ q "result" +:+ ": " +:+ q "ok" +:+ "}".
Definition text_created : string := "{" +:+ q "id" +:+ ": 7}".
Definition text_denied : string := "{" +:+ q "error" +:+ ": " +:+ q "forbidden" +:+ "}".
Definition text_plain : string := "Forbidden".

Definition dict_full : list (string * json) :=
  [("user_id", JStr "u1"); ("tool_id", JStr "summarise");
   ("input", JObj [("text", JStr "hello")])].
Definition dict_other_tool : list (string * json) :=
  [("user_id", JStr "u2"); ("tool_id", JStr "translate")].
Definition dict_no_user : list (string * json) :=
  [("tool_id", JStr "summarise"); ("input", JInt 42)].
Definition dict_untyped : list (string * json) :=
  [("user_id", JInt 7); ("tool_id", JObj [("id", JNull)])].

(** A decoder that knows the sample documents and rejects every
    other text. *)
Definition documents : list (string * json) :=
  [(text_full, JObj dict_full);
   (text_other_tool, JObj dict_other_tool);
   (text_no_user, JObj dict_no_user);
   (text_untyped, JObj dict_untyped);
   (text_list, JArr [JInt 1; JInt 2]);
   (text_ok, JObj [("result", JStr "ok")]);
   (text_created, JObj [("id", JInt 7)]);
   (text_denied, JObj [("error", JStr "forbidden")])].

Definition loads (s : string) : option json := dict_lookup s documents.

(** What [json.dumps] with [allow_nan=False] accepts: a value none of
    whose floats is [inf], [-inf] or [nan]. *)
Fixpoint finite (obj : json) : bool :=
  match obj with
  | JFloat r => negb (String.eqb r "inf" || String.eqb r "-inf" || String.eqb r "nan")
  | JArr items => forallb finite items
  | JObj members =>
      (fix all_finite (ms : list (string * json)) : bool :=
         match ms with
         | [] => true
         | (_, value) :: rest => finite value && all_finite rest
         end) members
  | _ => true
  end.

(** The sample serialiser fails on the floats that are not finite, once
    the encoder has run. *)
Definition serializable (value : json) : bool := finite (jsonable_encoder value).

Definition post (body : string) : request :=
  Request [("content-type", "application/json")] body.

Definition url : string := "https://n8n.example/webhook/tools".

Definition env_ok : gmap string string :=
  {[ "n8n_WEBHOOK_URL" := url; "OPENAI_API_KEY" := "sk-test" ]}.
Definition env_no_key : gmap string string :=
  {[ "n8n_WEBHOOK_URL" := url ]}.

Definition answers (code : Z) (text : string) : outbound -> net_outcome :=
  fun _ => Replied (Response code [("x-n8n-execution", "17")] text).
Definition unreachable : outbound -> net_outcome :=
  fun _ => Failed ConnectError.

Definition w_ok : world := World env_ok (answers 200 text_ok) [].
Definition w_created : world := World env_ok (answers 201 text_created) [].
Definition w_denied : world := World env_ok (answers 403 text_denied) [].
Definition w_denied_plain : world := World env_ok (answers 403 text_plain) [].
Definition w_down : world := World env_ok unreachable [].
Definition w_no_key : world := World env_no_key (answers 200 text_ok) [].
Definition w_ok_plain : world := World env_ok (answers 200 text_plain) [].
Definition w_bare : world := World ∅ (answers 200 text_ok) [].

End Samples.

(** ** Requests one after another *)

(** The server answers the requests of [reqs] in turn, each in the
    process as the one before has left it. *)
Fixpoint serve_all (loads : string -> option json) (serializable : json -> bool)
    (reqs : list request) (w : world) : list http_response * world :=
  match reqs with
  | [] => ([], w)
  | req :: rest =>
      let '(r, w1) := serve loads serializable req w in
      let '(rs, w2) := serve_all loads serializable rest w1 in
      (r :: rs, w2)
  end.

(** ** Row-level security of the [tools] table *)

(** SQL's truth values, [None] being NULL: a comparison with NULL is
    NULL, and [OR] is true as soon as one side is. *)
Definition sql_eq (a b : option string) : option bool :=
  match a, b with
  | Some x, Some y => Some (String.eqb x y)
  | _, _ => None
  end.

Definition sql_or (p q : option bool) : option bool :=
  match p, q with
  | Some true, _ => Some true
  | _, Some true => Some true
  | Some false, Some false => Some false
  | _, _ => None
  end.

Section ToolsPolicy.

(** A row of [tools (id, name, description, webhook_url, plan)]; the
    policy reads the [plan] column only. *)
Variable tools_row : Type.
Variable plan : tools_row -> option string.

(** [USING ( auth.role() = plan OR auth.role() = 'admin' )] *)
Definition policy_using (auth_role : option string) (row : tools_row) : option bool :=
  sql_or (sql_eq auth_role (plan row)) (sql_eq auth_role (Some "admin")).

(** [FOR SELECT]: a query returns the rows for which the expression is
    true; a row for which it is false or NULL is left out. *)
Definition select_tools (auth_role : option string) (table : list tools_row)
    : list tools_row :=
  filter (fun row => policy_using auth_role row = Some true) table.

End ToolsPolicy.

(** ** More samples *)

Module MoreSamples.

(** The full sample request with a field that the relay does not know. *)
Definition text_extra : string :=
  "{" +:+ Samples.q "user_id" +:+ ": " +:+ Samples.q "u1" +:+ ", "
      +:+ Samples.q "tool_id" +:+ ": " +:+ Samples.q "summarise" +:+ ", "
      +:+ Samples.q "input" +:+ ": {" +:+ Samples.q "text" +:+ ": "
      +:+ Samples.q "hello" +:+ "}, " +:+ Samples.q "debug" +:+ ": true}".
Definition text_word : string := Samples.q "hello".

Definition dict_extra : list (string * json) :=
  Samples.dict_full ++ [("debug", JBool true)].

(** A reply with a number too large for a float, which [json.loads]
    reads as [inf], and a reply with a key that starts with [_sa]. *)
Definition text_huge : string := "{" +:+ Samples.q "x" +:+ ": 1e400}".
Definition text_sa : string :=
  "{" +:+ Samples.q "_sa_instance_state" +:+ ": 1, " +:+ Samples.q "result" +:+ ": "
      +:+ Samples.q "ok" +:+ "}".

(** The sample decoder, with these documents added. *)
Definition loads (s : string) : option json :=
  match dict_lookup s [(text_extra, JObj dict_extra); (text_word, JStr "hello");
                       (text_huge, JObj [("x", JFloat "inf")]);
                       (text_sa, JObj [("_sa_instance_state", JInt 1);
                                       ("result", JStr "ok")])] with
  | Some j => Some j
  | None => Samples.loads s
  end.

Definition w_huge : world := World Samples.env_ok (Samples.answers 200 text_huge) [].
Definition w_sa : world := World Samples.env_ok (Samples.answers 200 text_sa) [].

Definition other_url : string := "https://other.example/hook".
Definition dotenv_file : list (string * string) :=
  [("n8n_WEBHOOK_URL", other_url); ("OPENAI_API_KEY", "sk-file")].

Record tool : Type := Tool {
  id : Z;
  name : string;
  description : string;
  webhook_url : option string;
  tool_plan : option string
}.

Definition tools : list tool :=
  [Tool 1 "summarise" "Summarise a text" (Some "https://n8n.example/webhook/sum") (Some "free");
   Tool 2 "translate" "Translate a text" (Some "https://n8n.example/webhook/tr") (Some "paid");
   Tool 3 "draft" "Not released" None None;
   Tool 4 "audit" "For the staff" None (Some "admin")].

End MoreSamples.

(** * Properties of the relay *)

Section RelayProperties.

Variable loads : string -> option json.
Variable serializable : json -> bool.

(** ** The handler, case by case *)

(** The handler's whole behaviour in one equation: which exception
    leaves it, or which call it issues and what it returns. *)
Lemma run_trigger_tool (req : request) (w : world) :
  run (trigger_tool loads req) w =
  match loads (req_body req) with
  | None => (inl JSONDecodeError, w)
  | Some (JObj d) =>
      match environ w !! "n8n_WEBHOOK_URL" with
      | None => (inl TypeError, w)
      | Some url =>
          (after_post loads (net w (relay_call w d url)),
           World (environ w) (net w) (outbox w ++ [relay_call w d url]))
      end
  | Some _ => (inl AttributeError, w)
  end.
Proof.
  unfold trigger_tool, request_json.
  destruct (loads (req_body req)) as [data|]; [|reflexivity].
  destruct data; try reflexivity.
  cbn. unfold relay_call.
  destruct (environ w !! "n8n_WEBHOOK_URL") as [url|]; [|reflexivity].
  cbn. destruct (net w _) as [res|f]; [|reflexivity].
  cbn. unfold response_json.
  destruct (loads (content res)); reflexivity.
Qed.

Lemma run_malformed (req : request) (w : world) :
  loads (req_body req) = None ->
  run (trigger_tool loads req) w = (inl JSONDecodeError, w).
Proof. intros H. rewrite run_trigger_tool, H. reflexivity. Qed.

Lemma run_dict (req : request) (w : world) (d : list (string * json)) (url : string) :
  loads (req_body req) = Some (JObj d) ->
  environ w !! "n8n_WEBHOOK_URL" = Some url ->
  run (trigger_tool loads req) w =
  (after_post loads (net w (relay_call w d url)),
   World (environ w) (net w) (outbox w ++ [relay_call w d url])).
Proof. intros H U. rewrite run_trigger_tool, H, U. reflexivity. Qed.

Lemma run_dict_no_url (req : request) (w : world) (d : list (string * json)) :
  loads (req_body req) = Some (JObj d) ->
  environ w !! "n8n_WEBHOOK_URL" = None ->
  run (trigger_tool loads req) w = (inl TypeError, w).
Proof. intros H U. rewrite run_trigger_tool, H, U. reflexivity. Qed.

Lemma serve_dict (req : request) (w : world) (d : list (string * json)) (url : string) :
  loads (req_body req) = Some (JObj d) ->
  environ w !! "n8n_WEBHOOK_URL" = Some url ->
  serve loads serializable req w =
  (respond serializable (after_post loads (net w (relay_call w d url))),
   World (environ w) (net w) (outbox w ++ [relay_call w d url])).
Proof. intros H U. unfold serve. rewrite (run_dict _ _ _ _ H U). reflexivity. Qed.

(** The relay answers with 200 or with 500, whatever it is sent. *)
Lemma respond_status (r : exn + json) :
  status (respond serializable r) = 200 \/ status (respond serializable r) = 500.
Proof.
  destruct r as [e|value]; [right; reflexivity|].
  unfold respond, json_response.
  destruct (serializable value); [left | right]; reflexivity.
Qed.

Lemma serve_status (req : request) (w : world) :
  status (serve loads serializable req w).1 = 200 \/ status (serve loads serializable req w).1 = 500.
Proof.
  unfold serve. destruct (run (trigger_tool loads req) w) as [r w'].
  apply respond_status.
Qed.

Lemma dict_get_found (d : list (string * json)) (key : string) (v : json) :
  dict_lookup key d = Some v -> dict_get d key = v.
Proof. unfold dict_get. intros ->. reflexivity. Qed.

Lemma dict_get_missing (d : list (string * json)) (key : string) :
  dict_lookup key d = None -> dict_get d key = JNull.
Proof. unfold dict_get. intros ->. reflexivity. Qed.

(** ** The encoder *)

(** The encoder changes nothing in a value without [_sa] keys. *)
Lemma jsonable_encoder_sa_free : forall obj : json,
  sa_free obj = true -> jsonable_encoder obj = obj.
Proof.
  fix IH 1. intros [ | b | n | r | s | items | members]; try reflexivity.
  - cbn [sa_free jsonable_encoder]. intros H. f_equal.
    induction items as [|item rest IHrest]; [reflexivity|].
    cbn in H |- *. apply andb_prop in H as [H1 H2].
    rewrite (IH item H1), (IHrest H2). reflexivity.
  - cbn [sa_free jsonable_encoder]. intros H. f_equal.
    induction members as [|[key value] rest IHrest]; [reflexivity|].
    apply andb_prop in H as [H12 H3]. apply andb_prop in H12 as [H1 H2].
    apply negb_true_iff in H1. rewrite H1, (IH value H2), (IHrest H3). reflexivity.
Qed.

(** What the caller receives for a returned value. *)
Lemma respond_value (value : json) :
  respond serializable (inr value) =
  if serializable value
  then HttpResponse 200 [("content-type", "application/json")]
                    (JsonBody (jsonable_encoder value))
  else internal_server_error.
Proof. unfold respond, json_response. destruct (serializable value); reflexivity. Qed.

(** ** The outbound body *)

(** C1: for a request body that holds [user_id] and [tool_id], the one
    POST that the handler issues carries exactly the body
    [{"user": user_id, "tool": tool_id, "input": input}], where [input]
    is null when the request has no such field. *)
Theorem trigger_tool_outbound_body (req : request) (w : world)
    (d : list (string * json)) (url : string) (user_id tool_id : json) :
  loads (req_body req) = Some (JObj d) ->
  dict_lookup "user_id" d = Some user_id ->
  dict_lookup "tool_id" d = Some tool_id ->
  environ w !! "n8n_WEBHOOK_URL" = Some url ->
  exists call,
    outbox (serve loads serializable req w).2 = outbox w ++ [call] /\
    out_json call =
      JObj [("user", user_id); ("tool", tool_id);
            ("input", default JNull (dict_lookup "input" d))].
Proof.
  intros Hbody Hu Ht Hurl.
  exists (relay_call w d url). rewrite (serve_dict _ _ _ _ Hbody Hurl).
  split; [reflexivity|].
  cbn. rewrite (dict_get_found _ _ _ Hu), (dict_get_found _ _ _ Ht). reflexivity.
Qed.

(** C10: the handler does not look at the type of [user_id] or
    [tool_id]: whatever JSON values the body holds under these keys,
    the POST is issued and carries them unchanged under [user] and
    [tool]. *)
Theorem trigger_tool_forwards_any_type (req : request) (w : world)
    (d : list (string * json)) (url : string) (u t : json) :
  loads (req_body req) = Some (JObj d) ->
  dict_lookup "user_id" d = Some u ->
  dict_lookup "tool_id" d = Some t ->
  environ w !! "n8n_WEBHOOK_URL" = Some url ->
  exists headers input,
    outbox (serve loads serializable req w).2 =
    outbox w ++ [Outbound url headers (JObj [("user", u); ("tool", t); ("input", input)])].
Proof.
  intros Hbody Hu Ht Hurl.
  exists [("Authorization", bearer (environ w !! "OPENAI_API_KEY"))], (dict_get d "input").
  rewrite (serve_dict _ _ _ _ Hbody Hurl). unfold relay_call.
  rewrite (dict_get_found _ _ _ Hu), (dict_get_found _ _ _ Ht).
  reflexivity.
Qed.

(** ** Requests that the specification calls malformed *)

(** C2, as the code has it: a body that is a dict without [user_id] or
    without [tool_id], or with an empty string under either, is not
    rejected.  With the webhook variable set the handler issues its
    one POST, with null for a missing field and the empty string as it
    is, and the caller's status is never in the 400 class. *)
Theorem trigger_tool_missing_field_forwarded (req : request) (w : world)
    (d : list (string * json)) (url : string) :
  loads (req_body req) = Some (JObj d) ->
  dict_lookup "user_id" d = None \/ dict_lookup "tool_id" d = None \/
  dict_lookup "user_id" d = Some (JStr EmptyString) \/
  dict_lookup "tool_id" d = Some (JStr EmptyString) ->
  environ w !! "n8n_WEBHOOK_URL" = Some url ->
  ~ client_error (status (serve loads serializable req w).1) /\
  exists call user tool,
    outbox (serve loads serializable req w).2 = outbox w ++ [call] /\
    out_json call =
      JObj [("user", user); ("tool", tool);
            ("input", default JNull (dict_lookup "input" d))] /\
    user = default JNull (dict_lookup "user_id" d) /\
    tool = default JNull (dict_lookup "tool_id" d) /\
    (user = JNull \/ tool = JNull \/
     user = JStr EmptyString \/ tool = JStr EmptyString).
Proof.
  intros Hbody Hmiss Hurl. split.
  - unfold client_error. destruct (serve_status req w) as [-> | ->]; lia.
  - exists (relay_call w d url), (dict_get d "user_id"), (dict_get d "tool_id").
    rewrite (serve_dict _ _ _ _ Hbody Hurl).
    repeat (split; [reflexivity|]).
    destruct Hmiss as [H | [H | [H | H]]].
    + left. apply dict_get_missing, H.
    + right; left. apply dict_get_missing, H.
    + right; right; left. apply dict_get_found, H.
    + right; right; right. apply dict_get_found, H.
Qed.

(** C3, as the code has it: a body that is not valid JSON makes
    [request.json()] raise; the caller receives the plain 500 and no
    outbound call is made (the world is left as it was). *)
Theorem trigger_tool_malformed_body (req : request) (w : world) :
  loads (req_body req) = None ->
  serve loads serializable req w = (internal_server_error, w).
Proof. intros H. unfold serve. rewrite (run_malformed _ _ H). reflexivity. Qed.

(** ** The downstream's answer *)

(** C4, as the code has it: when the downstream answers with a 2xx
    status and a JSON body, the handler returns that body, decoded.
    FastAPI answers with status 200 whatever the downstream's own status
    was, and with the value as it serialises it: the keys that start
    with [_sa] are left out and all else is unchanged; a value that it
    cannot serialise (one with a float that is not finite) ends in the
    plain 500.  A downstream 200 with body [{"result": "ok"}] reaches
    the caller as 200 with that body. *)
Theorem trigger_tool_returns_downstream_json (req : request) (w : world)
    (d : list (string * json)) (url : string) (res : response) (j : json) :
  loads (req_body req) = Some (JObj d) ->
  environ w !! "n8n_WEBHOOK_URL" = Some url ->
  net w (relay_call w d url) = Replied res ->
  success (status_code res) ->
  loads (content res) = Some j ->
  (serve loads serializable req w).1 =
    (if serializable j
     then HttpResponse 200 [("content-type", "application/json")]
                       (JsonBody (jsonable_encoder j))
     else internal_server_error) /\
  (serializable j = true -> sa_free j = true ->
   (serve loads serializable req w).1 =
     HttpResponse 200 [("content-type", "application/json")] (JsonBody j)).
Proof.
  intros Hbody Hurl Hnet _ Hj.
  assert (E : (serve loads serializable req w).1 = respond serializable (inr j)).
  { rewrite (serve_dict _ _ _ _ Hbody Hurl). cbn [fst].
    unfold after_post. rewrite Hnet, Hj. reflexivity. }
  rewrite E, respond_value. split; [reflexivity|].
  intros Hs Hfree. rewrite Hs, (jsonable_encoder_sa_free j Hfree). reflexivity.
Qed.

(** C5, as the code has it: the handler has no error translation.  A
    transport failure (connection refused, timeout) and a non-2xx answer
    whose body is not JSON both end in the same plain 500.  A non-2xx
    answer with a JSON body is returned like a success: status 200 with
    the body as FastAPI serialises it, or the plain 500 when it cannot
    serialise it.  In no case does the downstream's status code reach the
    caller. *)
Theorem trigger_tool_downstream_failure (req : request) (w : world)
    (d : list (string * json)) (url : string) :
  loads (req_body req) = Some (JObj d) ->
  environ w !! "n8n_WEBHOOK_URL" = Some url ->
  failed_interaction (net w (relay_call w d url)) ->
  (serve loads serializable req w).1 =
    match net w (relay_call w d url) with
    | Failed _ => internal_server_error
    | Replied res =>
        match loads (content res) with
        | None => internal_server_error
        | Some j =>
            if serializable j
            then HttpResponse 200 [("content-type", "application/json")]
                              (JsonBody (jsonable_encoder j))
            else internal_server_error
        end
    end.
Proof.
  intros Hbody Hurl _. rewrite (serve_dict _ _ _ _ Hbody Hurl). cbn [fst].
  unfold after_post.
  destruct (net w (relay_call w d url)) as [res|f]; [|reflexivity].
  destruct (loads (content res)) as [j|]; [|reflexivity].
  apply respond_value.
Qed.

(** C9: the downstream's body is always decoded before it is returned:
    what the handler returns is the value that [res.json()] gives.  A
    body that is not valid JSON makes [res.json()] raise, whatever the
    status, and the caller receives the plain 500, not the raw body.
    The downstream's headers never reach the caller: two answers that
    differ in their headers only give the same response. *)
Theorem trigger_tool_decodes_downstream_body (req : request) (w : world)
    (d : list (string * json)) (url : string) (res : response) :
  loads (req_body req) = Some (JObj d) ->
  environ w !! "n8n_WEBHOOK_URL" = Some url ->
  net w (relay_call w d url) = Replied res ->
  (forall j, loads (content res) = Some j ->
   (run (trigger_tool loads req) w).1 = inr j) /\
  (loads (content res) = None ->
   (serve loads serializable req w).1 = internal_server_error) /\
  (forall (w2 : world) (hs : list (string * string)),
     environ w2 = environ w ->
     net w2 (relay_call w d url) = Replied (Response (status_code res) hs (content res)) ->
     (serve loads serializable req w2).1 = (serve loads serializable req w).1).
Proof.
  intros Hbody Hurl Hnet.
  assert (E : forall w', environ w' = environ w ->
                (exists hs, net w' (relay_call w d url) =
                            Replied (Response (status_code res) hs (content res))) ->
                (run (trigger_tool loads req) w').1 =
                match loads (content res) with
                | Some j => inr j
                | None => inl JSONDecodeError
                end).
  { intros w' Henv [hs Hnet'].
    assert (Hurl' : environ w' !! "n8n_WEBHOOK_URL" = Some url) by (rewrite Henv; exact Hurl).
    rewrite (run_dict _ _ _ _ Hbody Hurl'). cbn [fst].
    replace (relay_call w' d url) with (relay_call w d url)
      by (unfold relay_call; rewrite Henv; reflexivity).
    unfold after_post. rewrite Hnet'. cbn [content].
    destruct (loads (content res)); reflexivity. }
  assert (Ew : (run (trigger_tool loads req) w).1 =
               match loads (content res) with
               | Some j => inr j
               | None => inl JSONDecodeError
               end).
  { apply E; [reflexivity|]. exists (res_headers res). rewrite Hnet. destruct res; reflexivity. }
  assert (S : forall w', (serve loads serializable req w').1 =
                         respond serializable (run (trigger_tool loads req) w').1).
  { intros w'. unfold serve. destruct (run (trigger_tool loads req) w'). reflexivity. }
  split; [intros j Hj; rewrite Ew, Hj; reflexivity|]. split.
  - intros Hnone. rewrite S, Ew, Hnone. reflexivity.
  - intros w2 hs Henv Hnet2. rewrite !S, Ew.
    rewrite (E w2 Henv (ex_intro _ hs Hnet2)). reflexivity.
Qed.

(** ** Side effects of one request *)

(** The handler changes nothing but the log of calls, and adds at most
    one call to it. *)
Lemma serve_at_most_one_call (req : request) (w : world) :
  exists cs, (serve loads serializable req w).2 = World (environ w) (net w) (outbox w ++ cs) /\
             (length cs <= 1)%nat.
Proof.
  unfold serve. rewrite run_trigger_tool.
  destruct w as [env nt ob]. cbn.
  destruct (loads (req_body req)) as [data|].
  2:{ exists []. rewrite app_nil_r. split; [reflexivity | cbn; lia]. }
  destruct data; try (exists []; rewrite app_nil_r; split; [reflexivity | cbn; lia]).
  destruct (env !! "n8n_WEBHOOK_URL") as [url|].
  - eexists [_]. split; [reflexivity | cbn; lia].
  - exists []. rewrite app_nil_r. split; [reflexivity | cbn; lia].
Qed.

(** C7, as the code has it: a request whose body decodes to a dict, in
    a process whose webhook variable is set, leads to exactly one
    outbound POST.  The attempt is not repeated, whatever its outcome,
    and nothing else of the process changes: the environment is as
    before and the log has grown by this one call. *)
Theorem trigger_tool_single_attempt (req : request) (w : world)
    (d : list (string * json)) (url : string) :
  loads (req_body req) = Some (JObj d) ->
  environ w !! "n8n_WEBHOOK_URL" = Some url ->
  exists call,
    out_url call = url /\
    (serve loads serializable req w).2 = World (environ w) (net w) (outbox w ++ [call]).
Proof.
  intros Hbody Hurl. exists (relay_call w d url).
  rewrite (serve_dict _ _ _ _ Hbody Hurl). split; reflexivity.
Qed.

(** ** Configuration *)

(** C6, as the code has it: start-up merges the [.env] file into the
    environment and checks nothing, so it succeeds with or without the
    two variables.  They are looked up in the environment while a
    request is handled: a missing webhook url shows as a plain 500 on
    that request, with no call made, and a missing credential is never
    noticed, the call carrying the header value [Bearer None]. *)
Theorem startup_checks_no_configuration (file : option (list (string * string)))
    (env : gmap string string) (downstream : outbound -> net_outcome)
    (req : request) (d : list (string * json)) :
  loads (req_body req) = Some (JObj d) ->
  exists w,
    startup file env downstream = inr w /\
    environ w = load_dotenv file env /\
    match environ w !! "n8n_WEBHOOK_URL" with
    | None => serve loads serializable req w = (internal_server_error, w)
    | Some url =>
        exists call,
          outbox (serve loads serializable req w).2 = [call] /\
          out_url call = url /\
          out_headers call =
            [("Authorization",
              match environ w !! "OPENAI_API_KEY" with
              | Some key => "Bearer " +:+ key
              | None => "Bearer None"
              end)]
    end.
Proof.
  intros Hbody. eexists. split; [reflexivity|]. split; [reflexivity|].
  set (w := World (load_dotenv file env) downstream []).
  destruct (environ w !! "n8n_WEBHOOK_URL") as [url|] eqn:Hurl.
  - exists (relay_call w d url). rewrite (serve_dict _ _ _ _ Hbody Hurl).
    repeat split. cbn. destruct (load_dotenv file env !! "OPENAI_API_KEY"); reflexivity.
  - unfold serve. rewrite (run_dict_no_url _ _ _ Hbody Hurl). reflexivity.
Qed.

(** ** Requests in flight together *)

Lemma perform_answer {X : Type} (ev : event X) (w1 w2 : world) :
  same_config w1 w2 -> (perform ev w1).1 = (perform ev w2).1.
Proof. intros [He Hn]. destruct ev; cbn; congruence. Qed.

Lemma perform_world {X : Type} (ev : event X) (w : world) :
  (perform ev w).2 = World (environ w) (net w) (outbox w ++ event_calls ev).
Proof. destruct ev, w; cbn; rewrite ?app_nil_r; reflexivity. Qed.

Lemma task_step_task (t : task) (w1 w2 : world) :
  same_config w1 w2 -> (task_step t w1).1 = (task_step t w2).1.
Proof.
  intros H. unfold task_step. destruct (code t) as [a|e|X ev k]; try reflexivity.
  pose proof (perform_answer ev _ _ H) as E.
  destruct (perform ev w1) as [x1 w1'], (perform ev w2) as [x2 w2'].
  cbn in *. subst. reflexivity.
Qed.

Lemma task_step_config (t : task) (w : world) : same_config (task_step t w).2 w.
Proof.
  unfold task_step. destruct (code t) as [a|e|X ev k]; try (split; reflexivity).
  pose proof (perform_world ev w) as E.
  destruct (perform ev w) as [x w']. cbn in *. subst. split; reflexivity.
Qed.

Lemma turns_succ (n : nat) (t : task) (w : world) :
  turns (S n) t w = turns n (fst (task_step t w)) w.
Proof. unfold turns. exact (Nat.iter_succ_r n (fun t => fst (task_step t w)) t). Qed.

Lemma turns_config (n : nat) (t : task) (w1 w2 : world) :
  same_config w1 w2 -> turns n t w1 = turns n t w2.
Proof.
  intros H. revert t. induction n as [|n IH]; intros t; [reflexivity|].
  rewrite !turns_succ, IH. f_equal. apply task_step_task, H.
Qed.

Lemma turns_finished (n : nat) (r : exn + json) (cs : list outbound) (w : world) :
  turns n (Task (finished r) cs) w = Task (finished r) cs.
Proof.
  induction n as [|n IH]; [reflexivity|].
  rewrite turns_succ. destruct r; exact IH.
Qed.

(** The log only grows: a run that starts with calls [ob] in the log
    is the run from the empty log, with [ob] in front. *)
Lemma run_outbox_app {A : Type} (p : prog A) (env : gmap string string)
    (nt : outbound -> net_outcome) (ob : list outbound) :
  run p (World env nt ob) =
  ((run p (World env nt [])).1,
   World env nt (ob ++ outbox (run p (World env nt [])).2)).
Proof.
  revert ob. induction p as [a|e|X ev k IH]; intros ob.
  - cbn. rewrite app_nil_r. reflexivity.
  - cbn. rewrite app_nil_r. reflexivity.
  - destruct ev as [name|call]; cbn.
    + apply IH.
    + rewrite IH. rewrite (IH _ [call]). cbn. rewrite <- app_assoc. reflexivity.
Qed.

(** Enough turns bring a task to the end that [run] computes. *)
Lemma turns_run (n : nat) (p : prog json) :
  finishes_within n p ->
  forall (m : nat) (cs : list outbound) (w : world), (n <= m)%nat ->
    turns m (Task p cs) w =
    Task (finished (run p (World (environ w) (net w) [])).1)
         (cs ++ outbox (run p (World (environ w) (net w) [])).2).
Proof.
  induction 1 as [n a|n e|n X ev k _ IH]; intros m cs w Hm.
  - cbn. rewrite app_nil_r. apply (turns_finished m (inr a)).
  - cbn. rewrite app_nil_r. apply (turns_finished m (inl e)).
  - destruct m as [|m]; [lia|]. rewrite turns_succ.
    destruct w as [env nt ob].
    destruct ev as [name|call]; cbn.
    + rewrite app_nil_r. apply IH. lia.
    + rewrite IH by lia. cbn.
      rewrite (run_outbox_app _ env nt [call]). cbn.
      rewrite <- app_assoc. reflexivity.
Qed.

(** After any schedule the task at index [i] is where its own turns
    have brought it; the turns of the others have not touched it. *)
Lemma pool_run_lookup (sched : list nat) :
  forall (ts : list task) (w : world) (i : nat) (t : task),
    ts !! i = Some t ->
    (pool_run sched (ts, w)).1 !! i = Some (turns (count_occ Nat.eq_dec sched i) t w).
Proof.
  induction sched as [|j rest IH]; intros ts w i t Hi; [exact Hi|].
  cbn [pool_run foldl]. fold (pool_run rest (pool_step j (ts, w))).
  unfold pool_step. cbn [fst snd].
  destruct (ts !! j) as [tj|] eqn:Hj.
  - pose proof (task_step_config tj w) as Hc.
    destruct (task_step tj w) as [tj' w'] eqn:Hstep. cbn in Hc.
    destruct (decide (j = i)) as [->|Hne].
    + assert (tj = t) by congruence. subst tj.
      rewrite count_occ_cons_eq by reflexivity.
      rewrite turns_succ, Hstep. cbn [fst].
      rewrite <- (turns_config _ _ _ _ Hc).
      apply IH. apply list_lookup_insert_eq. eapply lookup_lt_Some, Hi.
    + rewrite count_occ_cons_neq by exact Hne.
      rewrite <- (turns_config _ _ _ _ Hc).
      apply IH. rewrite list_lookup_insert_ne by exact Hne. exact Hi.
  - assert (j <> i) by congruence.
    rewrite count_occ_cons_neq by assumption.
    apply IH, Hi.
Qed.

(** The handler is over after three events: two variables looked up
    and one POST. *)
Lemma trigger_tool_finishes (req : request) :
  finishes_within 3 (trigger_tool loads req).
Proof.
  unfold trigger_tool, request_json.
  destruct (loads (req_body req)) as [data|]; [|constructor].
  destruct data; try constructor.
  cbn. intros key. constructor. intros [url|]; cbn; [|constructor].
  constructor. intros [res|f]; cbn; [|constructor].
  unfold response_json. destruct (loads (content res)); constructor.
Qed.

(** A turn adds the same calls to the task and to the log. *)
Lemma task_step_delta (t : task) (w : world) :
  exists delta,
    calls (task_step t w).1 = calls t ++ delta /\
    outbox (task_step t w).2 = outbox w ++ delta.
Proof.
  unfold task_step. destruct (code t) as [a|e|X ev k].
  - exists []. rewrite !app_nil_r. split; reflexivity.
  - exists []. rewrite !app_nil_r. split; reflexivity.
  - exists (event_calls ev). pose proof (perform_world ev w) as E.
    destruct (perform ev w) as [x w']. cbn in *. subst w'. split; reflexivity.
Qed.

Lemma pool_run_config (sched : list nat) :
  forall (ts : list task) (w : world), same_config (pool_run sched (ts, w)).2 w.
Proof.
  induction sched as [|k rest IH]; intros ts w; [split; reflexivity|].
  cbn [pool_run foldl]. fold (pool_run rest (pool_step k (ts, w))).
  unfold pool_step. cbn [fst snd].
  destruct (ts !! k) as [tk|]; [|apply IH].
  pose proof (task_step_config tk w) as [He Hn].
  destruct (task_step tk w) as [tk' w']. cbn in He, Hn.
  destruct (IH (<[k := tk']> ts) w') as [He' Hn'].
  split; congruence.
Qed.

Lemma calls_insert (ts : list task) (k : nat) (t t' : task) (delta : list outbound) :
  ts !! k = Some t ->
  calls t' = calls t ++ delta ->
  concat (calls <$> <[k := t']> ts) ≡ₚ concat (calls <$> ts) ++ delta.
Proof.
  intros Hk Hc.
  rewrite <- (take_drop_middle ts k t Hk) at 2.
  rewrite insert_take_drop by (eapply lookup_lt_Some, Hk).
  rewrite !fmap_app, !fmap_cons, !concat_app, !concat_cons, Hc.
  rewrite <- !app_assoc. do 2 apply Permutation_app_head.
  apply Permutation_app_comm.
Qed.

(** The log holds the calls of the tasks, each once, in the order in
    which the schedule has let them out. *)
Lemma pool_run_perm (sched : list nat) :
  forall (ts : list task) (w : world),
    outbox (pool_run sched (ts, w)).2 ++ concat (calls <$> ts) ≡ₚ
    outbox w ++ concat (calls <$> (pool_run sched (ts, w)).1).
Proof.
  induction sched as [|k rest IH]; intros ts w; [reflexivity|].
  cbn [pool_run foldl]. fold (pool_run rest (pool_step k (ts, w))).
  unfold pool_step. cbn [fst snd].
  destruct (ts !! k) as [tk|] eqn:Hk; [|apply IH].
  destruct (task_step_delta tk w) as (delta & Hc & Ho).
  destruct (task_step tk w) as [tk' w']. cbn in Hc, Ho.
  specialize (IH (<[k := tk']> ts) w').
  rewrite (calls_insert ts k tk tk' delta Hk Hc), Ho in IH.
  apply (Permutation_app_inv_r delta).
  rewrite <- app_assoc, IH, <- !app_assoc.
  apply Permutation_app_head, Permutation_app_comm.
Qed.

(** A request with a dict as its body, once it has had its three turns,
    has issued the relay's call for that dict and holds what the
    downstream has replied to it. *)
Lemma pool_task_end (reqs : list request) (sched : list nat) (w : world)
    (i : nat) (req : request) (d : list (string * json)) (url : string) :
  reqs !! i = Some req ->
  loads (req_body req) = Some (JObj d) ->
  environ w !! "n8n_WEBHOOK_URL" = Some url ->
  (3 <= count_occ Nat.eq_dec sched i)%nat ->
  (pool_run sched (spawn loads reqs, w)).1 !! i =
  Some (Task (finished (after_post loads (net w (relay_call w d url))))
             [relay_call w d url]).
Proof.
  intros Hi Hbody Hurl Hturns.
  assert (Hs : spawn loads reqs !! i = Some (Task (trigger_tool loads req) [])).
  { unfold spawn. rewrite list_lookup_fmap, Hi. reflexivity. }
  rewrite (pool_run_lookup _ _ _ _ _ Hs).
  rewrite (turns_run 3 _ (trigger_tool_finishes req) _ _ _ Hturns).
  rewrite (run_dict req (World (environ w) (net w) []) d url Hbody Hurl).
  reflexivity.
Qed.

(** C8: the handler keeps nothing from one request to the next.  Let
    any number of requests be in flight and let the event loop give the
    turns in any order ([sched]), switching between the requests at
    every event.  Two of them that ask for different tools and have had
    their turns have each issued their own call, with their own
    [tool_id] in it, and each holds what the downstream has replied to
    its own call.  Call and outcome are given by the request's body, the
    environment and the downstream; the log holds the calls of the
    requests and nothing else, and environment and downstream are as
    before. *)
Theorem concurrent_requests_do_not_interfere (reqs : list request)
    (sched : list nat) (w : world) (i j : nat) (req1 req2 : request)
    (d1 d2 : list (string * json)) (url : string) :
  reqs !! i = Some req1 ->
  reqs !! j = Some req2 ->
  loads (req_body req1) = Some (JObj d1) ->
  loads (req_body req2) = Some (JObj d2) ->
  dict_get d1 "tool_id" <> dict_get d2 "tool_id" ->
  environ w !! "n8n_WEBHOOK_URL" = Some url ->
  (3 <= count_occ Nat.eq_dec sched i)%nat ->
  (3 <= count_occ Nat.eq_dec sched j)%nat ->
  let st := pool_run sched (spawn loads reqs, w) in
  let call1 := relay_call w d1 url in
  let call2 := relay_call w d2 url in
  st.1 !! i = Some (Task (finished (after_post loads (net w call1))) [call1]) /\
  st.1 !! j = Some (Task (finished (after_post loads (net w call2))) [call2]) /\
  out_json call1 = JObj [("user", dict_get d1 "user_id"); ("tool", dict_get d1 "tool_id");
                         ("input", dict_get d1 "input")] /\
  out_json call2 = JObj [("user", dict_get d2 "user_id"); ("tool", dict_get d2 "tool_id");
                         ("input", dict_get d2 "input")] /\
  out_json call1 <> out_json call2 /\
  outbox st.2 ≡ₚ outbox w ++ concat (calls <$> st.1) /\
  same_config st.2 w.
Proof.
  intros Hi Hj Hb1 Hb2 Htool Hurl Hti Htj. cbv zeta.
  split; [exact (pool_task_end _ _ _ _ _ _ _ Hi Hb1 Hurl Hti)|].
  split; [exact (pool_task_end _ _ _ _ _ _ _ Hj Hb2 Hurl Htj)|].
  split; [reflexivity|]. split; [reflexivity|].
  split; [intros E; apply Htool; unfold relay_call in E; cbn in E; congruence|].
  split; [|apply pool_run_config].
  pose proof (pool_run_perm sched (spawn loads reqs) w) as Hp.
  replace (concat (calls <$> spawn loads reqs)) with (@nil outbound) in Hp.
  - rewrite app_nil_r in Hp. exact Hp.
  - unfold spawn. clear. induction reqs as [|r rs IH]; [reflexivity|]. cbn. exact IH.
Qed.

End RelayProperties.

(** * Further properties of the handler *)

Section MoreRelayProperties.

Variable loads : string -> option json.
Variable serializable : json -> bool.

(** A request served in any world is the request served with an empty
    log, the calls put behind the log that was there. *)
Lemma serve_from_empty_log (req : request) (env : gmap string string)
    (nt : outbound -> net_outcome) (ob : list outbound) :
  serve loads serializable req (World env nt ob) =
  (respond serializable (run (trigger_tool loads req) (World env nt [])).1,
   World env nt (ob ++ outbox (run (trigger_tool loads req) (World env nt [])).2)).
Proof.
  unfold serve. rewrite run_outbox_app.
  destruct (run (trigger_tool loads req) (World env nt [])) as [r w']. reflexivity.
Qed.

Lemma no_call_added (ob : list outbound) (c : outbound) : ob <> ob ++ [c].
Proof.
  intros H. apply (f_equal length) in H. rewrite length_app in H. cbn in H. lia.
Qed.

(** A call that has appeared in the log is the relay's call for the
    request's dict and the url of the environment. *)
Lemma serve_outbox_call (req : request) (w : world) (c : outbound) :
  outbox (serve loads serializable req w).2 = outbox w ++ [c] ->
  exists d url,
    loads (req_body req) = Some (JObj d) /\
    environ w !! "n8n_WEBHOOK_URL" = Some url /\
    c = relay_call w d url.
Proof.
  unfold serve. rewrite run_trigger_tool.
  destruct (loads (req_body req)) as [data|]; cbn;
    [|intros H; destruct (no_call_added _ _ H)].
  destruct data; cbn; try (intros H; destruct (no_call_added _ _ H)).
  destruct (environ w !! "n8n_WEBHOOK_URL") as [url|]; cbn;
    [|intros H; destruct (no_call_added _ _ H)].
  intros H. apply app_inv_head in H. exists members, url.
  repeat split. congruence.
Qed.

(** ** Bodies of the wrong shape *)

(** X1: a body that is valid JSON but no object (a list, a string, a
    number, [null]) makes [data.get] raise: the caller receives the plain
    500 and the process is left as it was, no call made. *)
Theorem body_that_is_no_dict (req : request) (w : world) (data : json) :
  loads (req_body req) = Some data ->
  (forall d, data <> JObj d) ->
  serve loads serializable req w = (internal_server_error, w).
Proof.
  intros Hbody Hshape. unfold serve. rewrite run_trigger_tool, Hbody.
  destruct data; try reflexivity. destruct (Hshape members). reflexivity.
Qed.

(** X2: the relay never makes up a 200.  A caller that is answered 200
    holds what the downstream has replied to the one call that this
    request has caused: the decoded body of that reply, as FastAPI
    serialises it (the keys that start with [_sa] left out). *)
Theorem ok_answer_comes_from_downstream (req : request) (w : world) :
  status (serve loads serializable req w).1 = 200 ->
  exists call res j,
    outbox (serve loads serializable req w).2 = outbox w ++ [call] /\
    net w call = Replied res /\
    loads (content res) = Some j /\
    serializable j = true /\
    (serve loads serializable req w).1 =
      HttpResponse 200 [("content-type", "application/json")]
                   (JsonBody (jsonable_encoder j)).
Proof.
  unfold serve. rewrite run_trigger_tool.
  destruct (loads (req_body req)) as [data|]; cbn; [|discriminate].
  destruct data; cbn; try discriminate.
  destruct (environ w !! "n8n_WEBHOOK_URL") as [url|]; cbn; [|discriminate].
  unfold after_post.
  destruct (net w (relay_call w members url)) as [res|f] eqn:Hnet; cbn; [|discriminate].
  destruct (loads (content res)) as [j|] eqn:Hj; cbn; [|discriminate].
  unfold json_response.
  destruct (serializable j) eqn:Hs; cbn; [|discriminate].
  intros _. exists (relay_call w members url), res, j. repeat split; assumption.
Qed.

(** X3: a request has one of two fates.  Either its body is a dict and
    the webhook variable is set, and exactly the relay's call goes out; or
    the caller receives the plain 500 and nothing at all has happened. *)
Theorem serve_call_or_unchanged (req : request) (w : world) :
  (exists d url,
     loads (req_body req) = Some (JObj d) /\
     environ w !! "n8n_WEBHOOK_URL" = Some url /\
     (serve loads serializable req w).2 =
       World (environ w) (net w) (outbox w ++ [relay_call w d url])) \/
  serve loads serializable req w = (internal_server_error, w).
Proof.
  unfold serve. rewrite run_trigger_tool.
  destruct (loads (req_body req)) as [data|]; [|right; reflexivity].
  destruct data; try (right; reflexivity).
  destruct (environ w !! "n8n_WEBHOOK_URL") as [url|]; [|right; reflexivity].
  left. exists members, url. repeat split.
Qed.

(** ** What of the request reaches the downstream *)

(** X4: of the request's dict the handler reads [user_id], [tool_id] and
    [input] and nothing else.  Two bodies that agree on these three (an
    absent field agreeing with an explicit null) are served alike: same
    call, same answer; any further field is dropped. *)
Theorem only_three_fields_matter (req1 req2 : request) (w : world)
    (d1 d2 : list (string * json)) :
  loads (req_body req1) = Some (JObj d1) ->
  loads (req_body req2) = Some (JObj d2) ->
  dict_get d1 "user_id" = dict_get d2 "user_id" ->
  dict_get d1 "tool_id" = dict_get d2 "tool_id" ->
  dict_get d1 "input" = dict_get d2 "input" ->
  serve loads serializable req1 w = serve loads serializable req2 w.
Proof.
  intros H1 H2 Hu Ht Hi. unfold serve. rewrite !run_trigger_tool, H1, H2.
  unfold relay_call. rewrite Hu, Ht, Hi. reflexivity.
Qed.

(** X5: where the call goes and which credential it carries is decided
    by the environment alone.  Whatever two requests ask for, their calls
    go to the same url, the value of [n8n_WEBHOOK_URL], with the same
    single header, built from [OPENAI_API_KEY]; no tool has a webhook of
    its own. *)
Theorem url_and_credential_do_not_depend_on_request (req1 req2 : request)
    (w : world) (c1 c2 : outbound) :
  outbox (serve loads serializable req1 w).2 = outbox w ++ [c1] ->
  outbox (serve loads serializable req2 w).2 = outbox w ++ [c2] ->
  out_url c1 = out_url c2 /\
  out_headers c1 = out_headers c2 /\
  environ w !! "n8n_WEBHOOK_URL" = Some (out_url c1) /\
  out_headers c1 = [("Authorization", bearer (environ w !! "OPENAI_API_KEY"))].
Proof.
  intros H1 H2.
  destruct (serve_outbox_call _ _ _ H1) as (d1 & u1 & _ & Hu1 & ->).
  destruct (serve_outbox_call _ _ _ H2) as (d2 & u2 & _ & Hu2 & ->).
  assert (u1 = u2) by congruence. subst u2.
  repeat split. exact Hu1.
Qed.

(** ** One request after another *)

(** What a request leaves behind: the log, grown by its calls. *)
Lemma serve_world (req : request) (w : world) :
  (serve loads serializable req w).2 =
  World (environ w) (net w) (outbox w ++ calls_for loads w req).
Proof.
  unfold serve, calls_for. rewrite run_trigger_tool. destruct w as [env nt ob]. cbn.
  destruct (loads (req_body req)) as [data|]; [|rewrite app_nil_r; reflexivity].
  destruct data; try (rewrite app_nil_r; reflexivity).
  destruct (env !! "n8n_WEBHOOK_URL"); [|rewrite app_nil_r]; reflexivity.
Qed.

(** X6: what an earlier request has done, whether it went through or
    failed, changes nothing for a later one.  A sequence of requests gets
    the answers that each request would get as the first, and the log
    grows, in the order of the requests, by the relay's call of each
    request whose body is a dict (when the webhook variable is set) and
    by nothing for the others. *)
Theorem earlier_requests_change_nothing (reqs : list request) (w : world) :
  (serve_all loads serializable reqs w).1 =
    (fun req => fst (serve loads serializable req w)) <$> reqs /\
  (serve_all loads serializable reqs w).2 =
    World (environ w) (net w) (outbox w ++ flat_map (calls_for loads w) reqs).
Proof.
  destruct w as [env nt ob]. revert ob.
  induction reqs as [|req rest IH]; intros ob.
  - cbn. rewrite app_nil_r. split; reflexivity.
  - cbn [serve_all].
    pose proof (serve_world req (World env nt ob)) as Hw.
    pose proof (serve_from_empty_log req env nt ob) as Hr.
    destruct (serve loads serializable req (World env nt ob)) as [r w1].
    cbn in Hw. subst w1. injection Hr as ->.
    destruct (IH (ob ++ calls_for loads (World env nt ob) req)) as [IH1 IH2].
    destruct (serve_all loads serializable rest _) as [rs w2]. cbn in IH1, IH2 |- *.
    subst rs w2. split.
    + f_equal.
      * rewrite serve_from_empty_log. reflexivity.
      * apply list_fmap_ext. intros _ r _. rewrite !serve_from_empty_log. reflexivity.
    + rewrite <- app_assoc. reflexivity.
Qed.

(** X7: the relay does not recognise a request that it has seen before.
    The same request sent twice goes to the downstream twice, as two
    equal calls. *)
Theorem repeated_request_is_forwarded_again (req : request) (w : world)
    (d : list (string * json)) (url : string) :
  loads (req_body req) = Some (JObj d) ->
  environ w !! "n8n_WEBHOOK_URL" = Some url ->
  outbox (serve loads serializable req (serve loads serializable req w).2).2 =
    outbox w ++ [relay_call w d url; relay_call w d url].
Proof.
  intros Hbody Hurl. rewrite (serve_dict _ _ _ _ _ _ Hbody Hurl). cbn [snd].
  rewrite (serve_dict loads serializable req
             (World (environ w) (net w) (outbox w ++ [relay_call w d url]))
             d url Hbody Hurl).
  cbn. rewrite <- app_assoc. reflexivity.
Qed.

(** ** The [.env] file and the environment *)

(** X8: [load_dotenv()] is called without [override], so a variable of
    the process environment outlives the [.env] file: if the environment
    sets the webhook url, the call goes there, whatever the file says. *)
Theorem process_environment_wins_over_dotenv (file : option (list (string * string)))
    (env : gmap string string) (downstream : outbound -> net_outcome)
    (req : request) (d : list (string * json)) (u : string) :
  loads (req_body req) = Some (JObj d) ->
  env !! "n8n_WEBHOOK_URL" = Some u ->
  exists w call,
    startup file env downstream = inr w /\
    outbox (serve loads serializable req w).2 = [call] /\
    out_url call = u.
Proof.
  intros Hbody Henv.
  set (w := World (load_dotenv file env) downstream []).
  assert (Hurl : environ w !! "n8n_WEBHOOK_URL" = Some u).
  { cbn. destruct file as [lines|]; cbn; [|exact Henv].
    apply lookup_union_Some_l, Henv. }
  exists w, (relay_call w d u). split; [reflexivity|].
  rewrite (serve_dict _ _ _ _ _ _ Hbody Hurl). split; reflexivity.
Qed.

(** X9: a variable that the environment does not set is taken from the
    [.env] file: with the webhook url in the file only, the call goes to
    the file's url. *)
Theorem dotenv_supplies_unset_variable (lines : list (string * string))
    (env : gmap string string) (downstream : outbound -> net_outcome)
    (req : request) (d : list (string * json)) (u : string) :
  loads (req_body req) = Some (JObj d) ->
  env !! "n8n_WEBHOOK_URL" = None ->
  dotenv_values lines !! "n8n_WEBHOOK_URL" = Some u ->
  exists w call,
    startup (Some lines) env downstream = inr w /\
    outbox (serve loads serializable req w).2 = [call] /\
    out_url call = u.
Proof.
  intros Hbody Henv Hfile.
  set (w := World (load_dotenv (Some lines) env) downstream []).
  assert (Hurl : environ w !! "n8n_WEBHOOK_URL" = Some u).
  { cbn. rewrite lookup_union_r by exact Henv. exact Hfile. }
  exists w, (relay_call w d u). split; [reflexivity|].
  rewrite (serve_dict _ _ _ _ _ _ Hbody Hurl). split; reflexivity.
Qed.

End MoreRelayProperties.

(** * The policy on [tools] *)

Section ToolsPolicyProperties.

Variable tools_row : Type.
Variable plan : tools_row -> option string.

Lemma policy_admin (row : tools_row) :
  policy_using tools_row plan (Some "admin") row = Some true.
Proof.
  unfold policy_using, sql_eq. rewrite String.eqb_refl.
  destruct (plan row) as [p|]; [destruct (String.eqb "admin" p)|]; reflexivity.
Qed.

Lemma policy_role (r : string) (row : tools_row) :
  r <> "admin" ->
  policy_using tools_row plan (Some r) row = Some true <-> plan row = Some r.
Proof.
  intros Hr. unfold policy_using, sql_eq.
  destruct (String.eqb_spec r "admin") as [E|_]; [contradiction|].
  destruct (plan row) as [p|]; cbv [sql_or]; [|split; discriminate].
  destruct (String.eqb_spec r p) as [->|Hne].
  - split; reflexivity.
  - split; [discriminate | intros [= E]; congruence].
Qed.

Lemma policy_no_role (row : tools_row) :
  policy_using tools_row plan None row = None.
Proof. reflexivity. Qed.

(** X10: the role [admin] sees the whole table, rows without a plan
    included. *)
Theorem admin_sees_every_tool (table : list tools_row) :
  select_tools tools_row plan (Some "admin") table = table.
Proof.
  unfold select_tools. induction table as [|row rest IH]; [reflexivity|].
  rewrite filter_cons_True by apply policy_admin. rewrite IH. reflexivity.
Qed.

(** X11: any other role sees the rows whose plan is that very role, in
    the table's order, and no others: the plans do not build on each
    other, and a row of one plan is hidden from every other plan. *)
Theorem role_sees_its_plan_only (r : string) (table : list tools_row) :
  r <> "admin" ->
  select_tools tools_row plan (Some r) table =
  filter (fun row => plan row = Some r) table.
Proof.
  intros Hr. unfold select_tools. apply list_filter_iff.
  intros row. apply policy_role, Hr.
Qed.

(** X12: a session whose role is NULL sees no row at all: both
    comparisons are NULL, and a row passes only when the expression is
    true. *)
Theorem no_role_sees_nothing (table : list tools_row) :
  select_tools tools_row plan None table = [].
Proof.
  unfold select_tools. induction table as [|row rest IH]; [reflexivity|].
  rewrite filter_cons_False by (rewrite policy_no_role; discriminate). exact IH.
Qed.

(** X13: a row whose plan is NULL is returned to the role [admin] and to
    nobody else. *)
Theorem tool_without_plan_is_for_admin_only (auth_role : option string)
    (row : tools_row) (table : list tools_row) :
  plan row = None ->
  (row ∈ select_tools tools_row plan auth_role table <->
   row ∈ table /\ auth_role = Some "admin").
Proof.
  intros Hplan. unfold select_tools. rewrite list_elem_of_filter.
  split.
  - intros [Hp Hin]. split; [exact Hin|].
    destruct auth_role as [r|]; [|discriminate].
    destruct (decide (r = "admin")) as [->|Hr]; [reflexivity|].
    apply (policy_role r row Hr) in Hp. congruence.
  - intros [Hin ->]. split; [apply policy_admin | exact Hin].
Qed.

End ToolsPolicyProperties.

(** * The log of a pool of requests *)

Section PoolLog.

Variable loads : string -> option json.

Lemma turns_calls_grow (m : nat) (t : task) (w : world) :
  (length (calls t) <= length (calls (turns m t w)))%nat.
Proof.
  induction m as [|m IH]; [reflexivity|].
  change (turns (S m) t w) with (fst (task_step (turns m t w) w)).
  destruct (task_step_delta (turns m t w) w) as (delta & Hc & _).
  rewrite Hc, length_app. lia.
Qed.

Lemma turns_add (n m : nat) (t : task) (w : world) :
  turns (n + m) t w = turns n (turns m t w) w.
Proof. unfold turns. apply Nat.iter_add. Qed.

(** A task of the handler never holds more than one call. *)
Lemma handler_task_calls (k : nat) (req : request) (w : world) :
  (length (calls (turns k (Task (trigger_tool loads req) []) w)) <= 1)%nat.
Proof.
  etransitivity; [apply (turns_calls_grow 3 _ w)|].
  rewrite <- turns_add.
  rewrite (turns_run 3 _ (trigger_tool_finishes loads req)) by lia.
  cbn [calls app]. rewrite run_trigger_tool. cbn.
  destruct (loads (req_body req)) as [data|]; [|cbn; lia].
  destruct data; try (cbn; lia).
  destruct (environ w !! "n8n_WEBHOOK_URL"); cbn; lia.
Qed.

Lemma sum_calls_insert (ts : list task) (i : nat) (t t' : task) (delta : list outbound) :
  ts !! i = Some t ->
  calls t' = calls t ++ delta ->
  sum_list_with (fun t => length (calls t)) (<[i := t']> ts) =
  (sum_list_with (fun t => length (calls t)) ts + length delta)%nat.
Proof.
  intros Hi Hc.
  rewrite <- (take_drop_middle ts i t Hi) at 2.
  rewrite insert_take_drop by (eapply lookup_lt_Some, Hi).
  rewrite !sum_list_with_app. cbn. rewrite Hc, length_app. lia.
Qed.

(** The log grows by what the tasks have called, and by nothing else. *)
Lemma pool_run_log (sched : list nat) :
  forall (ts : list task) (w : world),
    (length (outbox (pool_run sched (ts, w)).2) +
       sum_list_with (fun t => length (calls t)) ts =
     length (outbox w) +
       sum_list_with (fun t => length (calls t)) (pool_run sched (ts, w)).1)%nat.
Proof.
  induction sched as [|j rest IH]; intros ts w; [cbn; lia|].
  cbn [pool_run foldl]. fold (pool_run rest (pool_step j (ts, w))).
  unfold pool_step. cbn [fst snd].
  destruct (ts !! j) as [tj|] eqn:Hj; [|apply IH].
  destruct (task_step_delta tj w) as (delta & Hc & Ho).
  destruct (task_step tj w) as [tj' w']. cbn in Hc, Ho.
  specialize (IH (<[j := tj']> ts) w').
  rewrite (sum_calls_insert ts j tj tj' delta Hj Hc) in IH.
  rewrite Ho, length_app in IH. lia.
Qed.

Lemma pool_run_length (sched : list nat) :
  forall (ts : list task) (w : world),
    length (pool_run sched (ts, w)).1 = length ts.
Proof.
  induction sched as [|j rest IH]; intros ts w; [reflexivity|].
  cbn [pool_run foldl]. fold (pool_run rest (pool_step j (ts, w))).
  unfold pool_step. cbn [fst snd].
  destruct (ts !! j) as [tj|]; [|apply IH].
  destruct (task_step tj w) as [tj' w']. rewrite IH. apply length_insert.
Qed.

Lemma sum_list_with_bound {A : Type} (f : A -> nat) (l : list A) :
  (forall x, x ∈ l -> (f x <= 1)%nat) -> (sum_list_with f l <= length l)%nat.
Proof.
  induction l as [|x l IH]; intros H; [cbn; lia|].
  cbn. pose proof (H x (list_elem_of_here _ _)).
  assert (sum_list_with f l <= length l)%nat
    by (apply IH; intros y Hy; apply H; constructor; exact Hy).
  lia.
Qed.

(** X14: the relay does not multiply traffic.  However many requests
    are in flight and however the event loop orders their turns, the
    calls that have gone out are never more than the requests. *)
Theorem pool_makes_no_more_calls_than_requests (reqs : list request)
    (sched : list nat) (w : world) :
  (length (outbox (pool_run sched (spawn loads reqs, w)).2) <=
   length (outbox w) + length reqs)%nat.
Proof.
  assert (Hstart : sum_list_with (fun t => length (calls t)) (spawn loads reqs) = 0%nat).
  { unfold spawn. induction reqs as [|r rs IH]; [reflexivity|]. cbn. exact IH. }
  pose proof (pool_run_log sched (spawn loads reqs) w) as Hlog.
  rewrite Hstart in Hlog.
  assert (Hend : (sum_list_with (fun t => length (calls t))
                    (pool_run sched (spawn loads reqs, w)).1 <= length reqs)%nat).
  { etransitivity; [apply sum_list_with_bound|].
    - intros t Ht. apply list_elem_of_lookup in Ht as [i Hi].
      assert (is_Some (spawn loads reqs !! i)) as [t0 Ht0].
      { apply lookup_lt_is_Some. rewrite <- (pool_run_length sched _ w).
        eapply lookup_lt_Some, Hi. }
      rewrite (pool_run_lookup sched _ _ _ _ Ht0) in Hi.
      injection Hi as <-.
      unfold spawn in Ht0. rewrite list_lookup_fmap in Ht0.
      destruct (reqs !! i) as [req|]; [|discriminate].
      injection Ht0 as <-. apply handler_task_calls.
    - rewrite pool_run_length. unfold spawn. rewrite length_fmap. reflexivity. }
  lia.
Qed.

End PoolLog.

(** * The properties at the sample inputs *)

Import Samples.

(** C1 at a request with all three fields. *)
Lemma trigger_tool_outbound_body_witness :
  exists call,
    outbox (serve loads serializable (post text_full) w_ok).2 = outbox w_ok ++ [call] /\
    out_json call =
      JObj [("user", JStr "u1"); ("tool", JStr "summarise");
            ("input", JObj [("text", JStr "hello")])].
Proof.
  apply (trigger_tool_outbound_body loads serializable (post text_full) w_ok dict_full url
           (JStr "u1") (JStr "summarise")); vm_compute; reflexivity.
Defined.

(** A request without [input]: the field goes out as null. *)
Example absent_input_is_null :
  out_json <$> outbox (serve loads serializable (post text_other_tool) w_ok).2 =
  [JObj [("user", JStr "u2"); ("tool", JStr "translate"); ("input", JNull)]].
Proof. vm_compute. reflexivity. Qed.

(** C10 at a request with a number as [user_id] and a dict as [tool_id]. *)
Lemma trigger_tool_forwards_any_type_witness :
  exists headers input,
    outbox (serve loads serializable (post text_untyped) w_ok).2 =
    outbox w_ok ++
    [Outbound url headers
       (JObj [("user", JInt 7); ("tool", JObj [("id", JNull)]); ("input", input)])].
Proof.
  apply (trigger_tool_forwards_any_type loads serializable (post text_untyped) w_ok
           dict_untyped url (JInt 7) (JObj [("id", JNull)])); vm_compute; reflexivity.
Defined.

(** C2 fails on the code: the body [{"tool_id": "summarise", "input": 42}]
    has no [user_id], yet the caller is answered 200 and a call has gone
    out. *)
Lemma missing_user_id_is_not_rejected :
  loads (req_body (post text_no_user)) = Some (JObj dict_no_user) /\
  dict_lookup "user_id" dict_no_user = None /\
  ~ (client_error (status (serve loads serializable (post text_no_user) w_ok).1) /\
     outbox (serve loads serializable (post text_no_user) w_ok).2 = outbox w_ok).
Proof.
  split; [vm_compute; reflexivity|]. split; [reflexivity|].
  intros [H _]. unfold client_error in H.
  replace (status (serve loads serializable (post text_no_user) w_ok).1) with 200 in H
    by (vm_compute; reflexivity).
  lia.
Qed.

Lemma trigger_tool_missing_field_forwarded_witness :
  ~ client_error (status (serve loads serializable (post text_no_user) w_ok).1) /\
  exists call user tool,
    outbox (serve loads serializable (post text_no_user) w_ok).2 = outbox w_ok ++ [call] /\
    out_json call = JObj [("user", user); ("tool", tool); ("input", JInt 42)] /\
    user = JNull /\
    tool = JStr "summarise" /\
    (user = JNull \/ tool = JNull \/
     user = JStr EmptyString \/ tool = JStr EmptyString).
Proof.
  apply (trigger_tool_missing_field_forwarded loads serializable (post text_no_user) w_ok dict_no_user url).
  - vm_compute. reflexivity.
  - left. reflexivity.
  - vm_compute. reflexivity.
Defined.

(** C3 fails on the code: the body [{oops] is no JSON, and the caller is
    answered 500, which is no client error. *)
Lemma malformed_body_is_answered_500 :
  loads (req_body (post text_broken)) = None /\
  status (serve loads serializable (post text_broken) w_ok).1 = 500 /\
  ~ client_error (status (serve loads serializable (post text_broken) w_ok).1).
Proof.
  split; [reflexivity|]. split; [vm_compute; reflexivity|].
  unfold client_error.
  replace (status (serve loads serializable (post text_broken) w_ok).1) with 500
    by (vm_compute; reflexivity).
  lia.
Qed.

Lemma trigger_tool_malformed_body_witness :
  serve loads serializable (post text_broken) w_ok = (internal_server_error, w_ok).
Proof.
  apply (trigger_tool_malformed_body loads serializable (post text_broken) w_ok). reflexivity.
Defined.

(** C4 fails on the code: the downstream answers 201 with a JSON body,
    which is a success, and the caller is answered 200. *)
Lemma downstream_status_is_dropped :
  net w_created (relay_call w_created dict_full url) =
    Replied (Response 201 [("x-n8n-execution", "17")] text_created) /\
  success 201 /\
  loads text_created = Some (JObj [("id", JInt 7)]) /\
  status (serve loads serializable (post text_full) w_created).1 <> 201.
Proof.
  split; [reflexivity|]. split; [unfold success; lia|]. split; [vm_compute; reflexivity|].
  replace (status (serve loads serializable (post text_full) w_created).1) with 200
    by (vm_compute; reflexivity).
  lia.
Qed.

(** C4, as the code has it, at the specification's example: downstream
    200 with body [{"result": "ok"}]. *)
Lemma trigger_tool_returns_downstream_json_witness :
  (serve loads serializable (post text_full) w_ok).1 =
    HttpResponse 200 [("content-type", "application/json")]
                 (JsonBody (JObj [("result", JStr "ok")])).
Proof.
  destruct (trigger_tool_returns_downstream_json loads serializable (post text_full) w_ok
              dict_full url (Response 200 [("x-n8n-execution", "17")] text_ok)
              (JObj [("result", JStr "ok")])) as [_ H].
  - vm_compute. reflexivity.
  - vm_compute. reflexivity.
  - reflexivity.
  - unfold success. cbn. lia.
  - vm_compute. reflexivity.
  - apply H; reflexivity.
Defined.

(** A downstream 200 whose body holds a number that is read as [inf]:
    the value cannot be serialised and the caller is answered 500. *)
Example float_that_is_not_finite_is_answered_500 :
  MoreSamples.loads MoreSamples.text_huge = Some (JObj [("x", JFloat "inf")]) /\
  (serve MoreSamples.loads serializable (post text_full) MoreSamples.w_huge).1 =
    internal_server_error.
Proof. split; vm_compute; reflexivity. Qed.

(** A downstream 200 whose body holds a key that starts with [_sa]: the
    caller receives the body without it. *)
Example sa_key_is_left_out :
  body_out (serve MoreSamples.loads serializable (post text_full) MoreSamples.w_sa).1 =
    JsonBody (JObj [("result", JStr "ok")]).
Proof. vm_compute. reflexivity. Qed.

(** C5 fails on the code: a downstream that cannot be reached and a
    downstream that answers 403 with a text body give the caller the very
    same response, the plain 500; and a 403 with a JSON body reaches the
    caller with status 200, which is no server error and not the
    downstream's status. *)
Lemma unreachable_and_rejected_look_alike :
  (serve loads serializable (post text_full) w_down).1 = (serve loads serializable (post text_full) w_denied_plain).1 /\
  (serve loads serializable (post text_full) w_denied_plain).1 = internal_server_error /\
  status (serve loads serializable (post text_full) w_denied).1 = 200.
Proof. repeat split; vm_compute; reflexivity. Qed.

Lemma trigger_tool_downstream_failure_witness :
  (serve loads serializable (post text_full) w_denied).1 =
    HttpResponse 200 [("content-type", "application/json")]
                 (JsonBody (JObj [("error", JStr "forbidden")])).
Proof.
  rewrite (trigger_tool_downstream_failure loads serializable (post text_full) w_denied
             dict_full url).
  - vm_compute. reflexivity.
  - vm_compute. reflexivity.
  - vm_compute. reflexivity.
  - unfold failed_interaction, success. cbn. lia.
Defined.

(** C9 at a downstream that answers 200 with a body that is no JSON. *)
Lemma trigger_tool_decodes_downstream_body_witness :
  (forall j, loads text_plain = Some j ->
   (run (trigger_tool loads (post text_full)) w_ok_plain).1 = inr j) /\
  (loads text_plain = None ->
   (serve loads serializable (post text_full) w_ok_plain).1 = internal_server_error) /\
  (forall (w2 : world) (hs : list (string * string)),
     environ w2 = environ w_ok_plain ->
     net w2 (relay_call w_ok_plain dict_full url) = Replied (Response 200 hs text_plain) ->
     (serve loads serializable (post text_full) w2).1 =
     (serve loads serializable (post text_full) w_ok_plain).1).
Proof.
  apply (trigger_tool_decodes_downstream_body loads serializable (post text_full) w_ok_plain
           dict_full url (Response 200 [("x-n8n-execution", "17")] text_plain));
    vm_compute; reflexivity.
Defined.

(** C7 fails on the code: the body [[1, 2]] is valid JSON, but a list has
    no [get], and no call goes out. *)
Lemma list_body_makes_no_call :
  loads (req_body (post text_list)) = Some (JArr [JInt 1; JInt 2]) /\
  (serve loads serializable (post text_list) w_ok).1 = internal_server_error /\
  outbox (serve loads serializable (post text_list) w_ok).2 = [].
Proof. repeat split; vm_compute; reflexivity. Qed.

(** C7, as the code has it, at a downstream that cannot be reached: the
    one attempt is all there is. *)
Lemma trigger_tool_single_attempt_witness :
  exists call,
    out_url call = url /\
    (serve loads serializable (post text_full) w_down).2 =
      World (environ w_down) (net w_down) (outbox w_down ++ [call]).
Proof.
  apply (trigger_tool_single_attempt loads serializable (post text_full) w_down dict_full url);
    vm_compute; reflexivity.
Defined.

(** C6 fails on the code: with an empty environment and no [.env] file
    the start-up code runs through, and the missing url is met when the
    first request is handled. *)
Lemma missing_url_is_found_per_request :
  startup None ∅ (answers 200 text_ok) = inr w_bare /\
  environ w_bare !! "n8n_WEBHOOK_URL" = None /\
  environ w_bare !! "OPENAI_API_KEY" = None /\
  run (trigger_tool loads (post text_full)) w_bare = (inl TypeError, w_bare) /\
  serve loads serializable (post text_full) w_bare = (internal_server_error, w_bare).
Proof. repeat split; vm_compute; reflexivity. Qed.

(** C6, as the code has it, at a [.env] file that sets the url and no
    credential. *)
Lemma startup_checks_no_configuration_witness :
  exists w,
    startup (Some [("n8n_WEBHOOK_URL", url)]) ∅ (answers 200 text_ok) = inr w /\
    environ w = load_dotenv (Some [("n8n_WEBHOOK_URL", url)]) ∅ /\
    match environ w !! "n8n_WEBHOOK_URL" with
    | None => serve loads serializable (post text_full) w = (internal_server_error, w)
    | Some u =>
        exists call,
          outbox (serve loads serializable (post text_full) w).2 = [call] /\
          out_url call = u /\
          out_headers call =
            [("Authorization",
              match environ w !! "OPENAI_API_KEY" with
              | Some key => "Bearer " +:+ key
              | None => "Bearer None"
              end)]
    end.
Proof.
  apply (startup_checks_no_configuration loads serializable (Some [("n8n_WEBHOOK_URL", url)]) ∅
           (answers 200 text_ok) (post text_full) dict_full).
  vm_compute. reflexivity.
Defined.

(** The header that goes out when the credential is not set. *)
Example missing_credential_is_sent_as_None :
  out_headers <$> outbox (serve loads serializable (post text_full) w_no_key).2 =
  [[("Authorization", "Bearer None")]].
Proof. vm_compute. reflexivity. Qed.

(** C8 at two requests for different tools whose turns alternate. *)
Lemma concurrent_requests_do_not_interfere_witness :
  let st := pool_run [0; 1; 0; 1; 1; 0]%nat
              (spawn loads [post text_full; post text_other_tool], w_ok) in
  let call1 := relay_call w_ok dict_full url in
  let call2 := relay_call w_ok dict_other_tool url in
  st.1 !! 0%nat = Some (Task (finished (after_post loads (net w_ok call1))) [call1]) /\
  st.1 !! 1%nat = Some (Task (finished (after_post loads (net w_ok call2))) [call2]) /\
  out_json call1 = JObj [("user", JStr "u1"); ("tool", JStr "summarise");
                         ("input", JObj [("text", JStr "hello")])] /\
  out_json call2 = JObj [("user", JStr "u2"); ("tool", JStr "translate");
                         ("input", JNull)] /\
  out_json call1 <> out_json call2 /\
  outbox st.2 ≡ₚ outbox w_ok ++ concat (calls <$> st.1) /\
  same_config st.2 w_ok.
Proof.
  apply (concurrent_requests_do_not_interfere loads [post text_full; post text_other_tool]
           [0; 1; 0; 1; 1; 0]%nat w_ok 0%nat 1%nat (post text_full) (post text_other_tool)
           dict_full dict_other_tool url).
  - reflexivity.
  - reflexivity.
  - vm_compute. reflexivity.
  - vm_compute. reflexivity.
  - vm_compute. discriminate.
  - vm_compute. reflexivity.
  - cbn. lia.
  - cbn. lia.
Defined.

(** Both requests of that run, each with its own call. *)
Example two_tools_two_calls :
  (fun t => (outcome t, out_json <$> calls t)) <$>
    (pool_run [0; 1; 0; 1; 1; 0]%nat
       (spawn loads [post text_full; post text_other_tool], w_ok)).1 =
  [(Some (inr (JObj [("result", JStr "ok")])),
    [JObj [("user", JStr "u1"); ("tool", JStr "summarise");
           ("input", JObj [("text", JStr "hello")])]]);
   (Some (inr (JObj [("result", JStr "ok")])),
    [JObj [("user", JStr "u2"); ("tool", JStr "translate"); ("input", JNull)]])].
Proof. vm_compute. reflexivity. Qed.

(** * The further properties at the sample inputs *)

(** X1 at a body that is a JSON string. *)
Lemma body_that_is_no_dict_witness :
  serve MoreSamples.loads serializable (post MoreSamples.text_word) w_ok = (internal_server_error, w_ok).
Proof.
  apply (body_that_is_no_dict MoreSamples.loads serializable (post MoreSamples.text_word) w_ok
           (JStr "hello")).
  - vm_compute. reflexivity.
  - intros d. discriminate.
Defined.

(** X2 at the full sample request. *)
Lemma ok_answer_comes_from_downstream_witness :
  exists call res j,
    outbox (serve loads serializable (post text_full) w_ok).2 = outbox w_ok ++ [call] /\
    net w_ok call = Replied res /\
    loads (content res) = Some j /\
    serializable j = true /\
    (serve loads serializable (post text_full) w_ok).1 =
      HttpResponse 200 [("content-type", "application/json")]
                   (JsonBody (jsonable_encoder j)).
Proof.
  apply (ok_answer_comes_from_downstream loads serializable (post text_full) w_ok).
  vm_compute. reflexivity.
Defined.

(** X4 at the full sample request and the same request with a [debug]
    field. *)
Lemma only_three_fields_matter_witness :
  serve MoreSamples.loads serializable (post text_full) w_ok =
  serve MoreSamples.loads serializable (post MoreSamples.text_extra) w_ok.
Proof.
  apply (only_three_fields_matter MoreSamples.loads serializable (post text_full)
           (post MoreSamples.text_extra) w_ok dict_full MoreSamples.dict_extra);
    vm_compute; reflexivity.
Defined.

(** X5 at two requests for different tools. *)
Lemma url_and_credential_do_not_depend_on_request_witness :
  out_url (relay_call w_ok dict_full url) = out_url (relay_call w_ok dict_other_tool url) /\
  out_headers (relay_call w_ok dict_full url) =
    out_headers (relay_call w_ok dict_other_tool url) /\
  environ w_ok !! "n8n_WEBHOOK_URL" = Some (out_url (relay_call w_ok dict_full url)) /\
  out_headers (relay_call w_ok dict_full url) =
    [("Authorization", bearer (environ w_ok !! "OPENAI_API_KEY"))].
Proof.
  apply (url_and_credential_do_not_depend_on_request loads serializable (post text_full)
           (post text_other_tool) w_ok);
    vm_compute; reflexivity.
Defined.

(** X7 at the full sample request. *)
Lemma repeated_request_is_forwarded_again_witness :
  outbox (serve loads serializable (post text_full) (serve loads serializable (post text_full) w_ok).2).2 =
    outbox w_ok ++ [relay_call w_ok dict_full url; relay_call w_ok dict_full url].
Proof.
  apply (repeated_request_is_forwarded_again loads serializable (post text_full) w_ok dict_full url);
    vm_compute; reflexivity.
Defined.

(** X8 at an environment and a [.env] file that name different urls. *)
Lemma process_environment_wins_over_dotenv_witness :
  exists w call,
    startup (Some MoreSamples.dotenv_file) env_ok (answers 200 text_ok) = inr w /\
    outbox (serve loads serializable (post text_full) w).2 = [call] /\
    out_url call = url.
Proof.
  apply (process_environment_wins_over_dotenv loads serializable (Some MoreSamples.dotenv_file)
           env_ok (answers 200 text_ok) (post text_full) dict_full url);
    vm_compute; reflexivity.
Defined.

(** X9 at an empty environment and a [.env] file that names the url. *)
Lemma dotenv_supplies_unset_variable_witness :
  exists w call,
    startup (Some MoreSamples.dotenv_file) ∅ (answers 200 text_ok) = inr w /\
    outbox (serve loads serializable (post text_full) w).2 = [call] /\
    out_url call = MoreSamples.other_url.
Proof.
  apply (dotenv_supplies_unset_variable loads serializable MoreSamples.dotenv_file ∅
           (answers 200 text_ok) (post text_full) dict_full MoreSamples.other_url);
    vm_compute; reflexivity.
Defined.

(** X11 at the role [paid]: of the four sample tools it sees the one of
    its plan, and not the tool of the plan [free]. *)
Lemma role_sees_its_plan_only_witness :
  select_tools MoreSamples.tool MoreSamples.tool_plan (Some "paid") MoreSamples.tools =
  filter (fun row => MoreSamples.tool_plan row = Some "paid") MoreSamples.tools.
Proof.
  apply (role_sees_its_plan_only MoreSamples.tool MoreSamples.tool_plan "paid"
           MoreSamples.tools).
  discriminate.
Defined.

Example paid_sees_one_tool :
  MoreSamples.id <$>
    select_tools MoreSamples.tool MoreSamples.tool_plan (Some "paid") MoreSamples.tools
  = [2].
Proof. vm_compute. reflexivity. Qed.

(** The policy compares as SQL does, letter for letter: the role
    [Admin] of the feature list is not the [admin] of the policy. *)
Example capital_Admin_is_no_admin :
  select_tools MoreSamples.tool MoreSamples.tool_plan (Some "Admin") MoreSamples.tools = [].
Proof. vm_compute. reflexivity. Qed.

(** X13 at the sample tool without a plan and the role [free]. *)
Lemma tool_without_plan_is_for_admin_only_witness :
  MoreSamples.Tool 3 "draft" "Not released" None None ∈
    select_tools MoreSamples.tool MoreSamples.tool_plan (Some "free") MoreSamples.tools <->
  MoreSamples.Tool 3 "draft" "Not released" None None ∈ MoreSamples.tools /\
  Some "free" = Some "admin".
Proof.
  apply (tool_without_plan_is_for_admin_only MoreSamples.tool MoreSamples.tool_plan
           (Some "free") (MoreSamples.Tool 3 "draft" "Not released" None None)
           MoreSamples.tools).
  reflexivity.
Defined.

(** The views of the four sample tools by role. *)
Example views_by_role :
  (fun r => MoreSamples.id <$>
     select_tools MoreSamples.tool MoreSamples.tool_plan r MoreSamples.tools)
    <$> [Some "admin"; Some "free"; Some "paid"; None]
  = [[1; 2; 3; 4]; [1]; [2]; []].
Proof. vm_compute. reflexivity. Qed.
